(** * Nuntius: the Application registry of connections and channels

    A shallow embedding of [connection/connection.go] (package [connection]
    and package [app]) of the nuntius Pusher server.

    - Go pointers to [channel.Channel] values are heap addresses
      ([positive]); the heap maps an address to the Channel it points to,
      so a Channel shared by the registry and by a caller is one object.
    - [map[string]*...] fields are stdpp [gmap]s.
    - [expvar.Map] is a [gmap string Z]; [Add k d] creates a missing key at 0.
    - [error] results are [result A].
    - [glog] calls have no effect on the state and are not modelled, except
      in [Connection.Publish] where the logged failure is part of the claim.
    - Go map iteration order is unspecified; [range] over a map is modelled
      as an iteration over [map_to_list], one fixed order.

    The package [channel] is not part of the sources; its operations are
    modelled from the specification (definitions marked as such). *)

From Stdlib Require Import ZArith String Ascii.
From stdpp Require Import base gmap strings list fin_maps.

Module Nuntius.

Open Scope string_scope.

(** Go's [(T, error)] and [error] results. *)
Inductive result (A : Type) : Type :=
| Ok (a : A)
| Err (e : string).
Arguments Ok {A} a.
Arguments Err {A} e.

(** ** Package connection *)

Definition Message := string.

(** [Socket.WriteJSON]: the outcome of writing one message, [None] when the
    write succeeds and [Some err] when it fails. *)
Definition Socket := Message -> option string.

Record Connection := mkConnection {
  SocketID : string;
  Socket_ : Socket;
  CreatedAt : Z
}.

(** [connection.New(socketID, s)]; [now] is the [time.Now()] it reads. *)
Definition connection_New (socketID : string) (s : Socket) (now : Z) : Connection :=
  mkConnection socketID s now.

Inductive LogEntry :=
| LogInfo (s : string)
| LogError (s : string).

(** [func (conn *Connection) Publish(m interface{})]: the write happens under
    the connection's mutex; a failure is logged and not returned. The result
    is the connection after the call, the (absent) return value and the log. *)
Definition Connection_Publish (conn : Connection) (m : Message)
  : Connection * unit * list LogEntry :=
  match Socket_ conn m with
  | Some err => (conn, tt, [LogError ("error writing json into Socket, " ++ err)])
  | None => (conn, tt, [])
  end.

(** ** Package channel (not in the sources) *)

(** Modelled from the spec: the Application-level hook each listener
    closure built in [FindOrCreateChannelByChannelID] calls. *)
Inductive Trigger :=
| TriggerChannelOccupiedHook
| TriggerChannelVacatedHook
| TriggerMemberAddedHook
| TriggerMemberRemovedHook
| TriggerClientEventHook.

(** Modelled from the spec: the listener set of a Channel, supplied at
    construction; [None] is a listener that was not given. *)
Record Listeners := mkListeners {
  OnOccupied : option Trigger;
  OnVacated : option Trigger;
  OnMemberAdded : option Trigger;
  OnMemberRemoved : option Trigger;
  OnClientEvent : option Trigger
}.

Definition no_listeners : Listeners := mkListeners None None None None None.

(** Modelled from the spec: a Subscription binds a connection to a channel
    and carries the member data. *)
Record Subscription := mkSubscription {
  sub_Connection : Connection;
  sub_Channel : string;
  sub_Data : string
}.

(** Modelled from the spec: a Channel is its identifier, its roster keyed by
    socket identifier and its listeners. *)
Record Channel := mkChannel {
  ID : string;
  subscriptions : gmap string Subscription;
  listeners : Listeners
}.

Definition set_subscriptions (s : gmap string Subscription) (c : Channel) : Channel :=
  mkChannel (ID c) s (listeners c).

(** Modelled from the spec: the kind is derived from the identifier prefix. *)
Definition IsPresence (c : Channel) : bool := String.prefix "presence-" (ID c).
Definition IsPrivate (c : Channel) : bool := String.prefix "private-" (ID c).
Definition IsPublic (c : Channel) : bool := negb (IsPresence c) && negb (IsPrivate c).

(** Modelled from the spec: [IsOccupied] is true iff the roster is non-empty;
    [IsSubscribed] looks the connection up by socket identifier. *)
Definition IsOccupied (c : Channel) : bool := negb (Nat.eqb (size (subscriptions c)) 0).
Definition IsSubscribed (c : Channel) (conn : Connection) : bool :=
  bool_decide (is_Some (subscriptions c !! SocketID conn)).

(** Modelled from the spec: the functional options of [channel.New]. *)
Definition ChannelOption := Listeners -> Listeners.

Definition WithChannelOccupiedListener (t : Trigger) : ChannelOption :=
  fun l => mkListeners (Some t) (OnVacated l) (OnMemberAdded l) (OnMemberRemoved l) (OnClientEvent l).
Definition WithChannelVacatedListener (t : Trigger) : ChannelOption :=
  fun l => mkListeners (OnOccupied l) (Some t) (OnMemberAdded l) (OnMemberRemoved l) (OnClientEvent l).
Definition WithMemberAddedListener (t : Trigger) : ChannelOption :=
  fun l => mkListeners (OnOccupied l) (OnVacated l) (Some t) (OnMemberRemoved l) (OnClientEvent l).
Definition WithMemberRemovedListener (t : Trigger) : ChannelOption :=
  fun l => mkListeners (OnOccupied l) (OnVacated l) (OnMemberAdded l) (Some t) (OnClientEvent l).
Definition WithClientEventListener (t : Trigger) : ChannelOption :=
  fun l => mkListeners (OnOccupied l) (OnVacated l) (OnMemberAdded l) (OnMemberRemoved l) (Some t).

(** Modelled from the spec: [channel.New(id, opts...)], an empty roster and
    the listeners the options set. *)
Definition channel_New (n : string) (opts : list ChannelOption) : Channel :=
  mkChannel n ∅ (foldl (fun l o => o l) no_listeners opts).

(** ** The state: the Application and the heap of Channels *)

Record AppConfig := mkAppConfig {
  Name : string;
  AppID : string;
  Key : string;
  Secret : string;
  OnlySSL : bool;
  Enabled : bool;
  UserEvents : bool;
  WebHooks : bool;
  URLWebHook : string
}.

(** A webhook dispatch request handed to the external webhook layer:
    the hook, the channel identifier and the subscription's socket. *)
Record Hook := mkHook {
  hook_Trigger : Trigger;
  hook_Channel : string;
  hook_Socket : option string
}.

Record World := mkWorld {
  cfg : AppConfig;
  channels : gmap string positive;
  connections : gmap string Connection;
  Stats : gmap string Z;
  heap : gmap positive Channel;
  next_ptr : positive;
  hooks : list Hook
}.

Definition set_channels (m : gmap string positive) (w : World) : World :=
  mkWorld (cfg w) m (connections w) (Stats w) (heap w) (next_ptr w) (hooks w).
Definition set_connections (m : gmap string Connection) (w : World) : World :=
  mkWorld (cfg w) (channels w) m (Stats w) (heap w) (next_ptr w) (hooks w).
Definition set_Stats (m : gmap string Z) (w : World) : World :=
  mkWorld (cfg w) (channels w) (connections w) m (heap w) (next_ptr w) (hooks w).
Definition set_heap (h : gmap positive Channel) (w : World) : World :=
  mkWorld (cfg w) (channels w) (connections w) (Stats w) h (next_ptr w) (hooks w).
Definition add_hook (k : Hook) (w : World) : World :=
  mkWorld (cfg w) (channels w) (connections w) (Stats w) (heap w) (next_ptr w) (hooks w ++ [k]).

(** [new(channel.Channel)]: allocate a Channel at a fresh address. *)
Definition alloc (c : Channel) (w : World) : World * positive :=
  (mkWorld (cfg w) (channels w) (connections w) (Stats w)
     (<[next_ptr w := c]> (heap w)) (Pos.succ (next_ptr w)) (hooks w), next_ptr w).

(** [expvar.Map.Add] and the value a metric reader sees. *)
Definition Stats_Add (k : string) (d : Z) (w : World) : World :=
  set_Stats (<[k := (default 0%Z (Stats w !! k) + d)%Z]> (Stats w)) w.
Definition counter (k : string) (w : World) : Z := default 0%Z (Stats w !! k).

(** [NewApplication]: empty registries and a fresh metrics map. *)
Definition NewApplication (c : AppConfig) : World :=
  mkWorld c ∅ ∅ ∅ ∅ 1%positive [].

(** ** Channel operations (not in the sources) *)

(** Modelled from the spec: invoking a listener. A listener that was given
    runs the Application hook it was built with, which hands a dispatch
    request to the webhook layer. *)
Definition fire (l : option Trigger) (cid : string) (s : option Subscription)
    (w : World) : World :=
  match l with
  | Some t => add_hook (mkHook t cid (SocketID ∘ sub_Connection <$> s)) w
  | None => w
  end.

(** Modelled from the spec: [Channel.Subscribe(conn, data)] adds a
    Subscription or refreshes the member data of the existing one; the first
    member fires Occupied, then every Subscribe on a presence channel fires
    MemberAdded. *)
Definition Channel_Subscribe (p : positive) (conn : Connection) (data : string)
    (w : World) : World * result unit :=
  match heap w !! p with
  | None => (w, Err "channel not found")
  | Some c =>
      let s := match subscriptions c !! SocketID conn with
               | Some s0 => mkSubscription (sub_Connection s0) (sub_Channel s0) data
               | None => mkSubscription conn (ID c) data
               end in
      let c' := set_subscriptions (<[SocketID conn := s]> (subscriptions c)) c in
      let w1 := set_heap (<[p := c']> (heap w)) w in
      let w2 := if negb (IsOccupied c) then fire (OnOccupied (listeners c)) (ID c) (Some s) w1 else w1 in
      let w3 := if IsPresence c then fire (OnMemberAdded (listeners c)) (ID c) (Some s) w2 else w2 in
      (w3, Ok tt)
  end.

(** Modelled from the spec: [Channel.Unsubscribe(conn)] fails with NotFound
    when the connection is not a member; otherwise it removes the member,
    fires MemberRemoved on a presence channel and then Vacated when the
    roster became empty. *)
Definition Channel_Unsubscribe (p : positive) (conn : Connection)
    (w : World) : World * result unit :=
  match heap w !! p with
  | None => (w, Err "channel not found")
  | Some c =>
      match subscriptions c !! SocketID conn with
      | None => (w, Err "subscription not found")
      | Some s =>
          let c' := set_subscriptions (delete (SocketID conn) (subscriptions c)) c in
          let w1 := set_heap (<[p := c']> (heap w)) w in
          let w2 := if IsPresence c then fire (OnMemberRemoved (listeners c)) (ID c) (Some s) w1 else w1 in
          let w3 := if negb (IsOccupied c') then fire (OnVacated (listeners c)) (ID c) (Some s) w2 else w2 in
          (w3, Ok tt)
      end
  end.

(** The Channel a pointer designates, read through the heap. *)
Definition deref (w : World) (p : positive) : option Channel := heap w !! p.

(** ** Package app: [Application] methods *)

(** [Channels]: every registered channel. *)
Definition Channels (w : World) : list positive * World :=
  (foldr (fun '(_, p) acc => p :: acc) [] (map_to_list (channels w)), w).

Definition kind_filter (k : Channel -> bool) (w : World) : list positive * World :=
  (foldr (fun '(_, p) acc =>
            match deref w p with
            | Some c => if k c then p :: acc else acc
            | None => acc
            end) [] (map_to_list (channels w)), w).

(** [PresenceChannels], [PrivateChannels], [PublicChannels]. *)
Definition PresenceChannels (w : World) : list positive * World := kind_filter IsPresence w.
Definition PrivateChannels (w : World) : list positive * World := kind_filter IsPrivate w.
Definition PublicChannels (w : World) : list positive * World := kind_filter IsPublic w.

(** [FindConnection]. *)
Definition FindConnection (socketID : string) (w : World) : result Connection :=
  match connections w !! socketID with
  | Some conn => Ok conn
  | None => Err "connection not found"
  end.

(** [Connect]. *)
Definition Connect (conn : Connection) (w : World) : World :=
  Stats_Add "TotalConnections" 1 (set_connections (<[SocketID conn := conn]> (connections w)) w).

(** One round of the [Disconnect] loop: unsubscribe from [p] when
    subscribed; a failed [Channel.Unsubscribe] is logged and skipped. *)
Definition disconnect_step (conn : Connection) (w : World) (p : positive) : World :=
  match deref w p with
  | Some c => if IsSubscribed c conn then fst (Channel_Unsubscribe p conn w) else w
  | None => w
  end.

(** [Disconnect]. *)
Definition Disconnect (socketID : string) (w : World) : World :=
  match FindConnection socketID w with
  | Err _ => w
  | Ok conn =>
      let w1 := foldl (fun w '(_, p) => disconnect_step conn w p) w (map_to_list (channels w)) in
      match connections w1 !! SocketID conn with
      | None => w1
      | Some _ =>
          Stats_Add "TotalConnections" (-1)
            (set_connections (delete (SocketID conn) (connections w1)) w1)
      end
  end.

(** The kind counters [AddChannel] and [RemoveChannel] adjust by [d]. *)
Definition adjust_kind_counters (c : Channel) (d : Z) (w : World) : World :=
  let w1 := if IsPresence c then Stats_Add "TotalPresenceChannels" d w else w in
  let w2 := if IsPrivate c then Stats_Add "TotalPrivateChannels" d w1 else w1 in
  let w3 := if IsPublic c then Stats_Add "TotalPublicChannels" d w2 else w2 in
  Stats_Add "TotalChannels" d w3.

(** [RemoveChannel]: delete by identifier and decrement, unconditionally. *)
Definition RemoveChannel (p : positive) (w : World) : World :=
  match deref w p with
  | Some c => adjust_kind_counters c (-1) (set_channels (delete (ID c) (channels w)) w)
  | None => w
  end.

(** [AddChannel]: store under the identifier and increment, unconditionally. *)
Definition AddChannel (p : positive) (w : World) : World :=
  match deref w p with
  | Some c => adjust_kind_counters c 1 (set_channels (<[ID c := p]> (channels w)) w)
  | None => w
  end.

(** [FindChannelByChannelID]. *)
Definition FindChannelByChannelID (n : string) (w : World) : result positive :=
  match channels w !! n with
  | Some p => Ok p
  | None => Err "channel does not exists"
  end.

(** The five listener options [FindOrCreateChannelByChannelID] passes. *)
Definition app_channel_options : list ChannelOption :=
  [ WithChannelOccupiedListener TriggerChannelOccupiedHook;
    WithChannelVacatedListener TriggerChannelVacatedHook;
    WithMemberAddedListener TriggerMemberAddedHook;
    WithMemberRemovedListener TriggerMemberRemovedHook;
    WithClientEventListener TriggerClientEventHook ].

(** [FindOrCreateChannelByChannelID]. *)
Definition FindOrCreateChannelByChannelID (n : string) (w : World) : World * positive :=
  match FindChannelByChannelID n w with
  | Ok p => (w, p)
  | Err _ =>
      let '(w1, p) := alloc (channel_New n app_channel_options) w in
      (AddChannel p w1, p)
  end.

(** [Application.Unsubscribe]. *)
Definition Unsubscribe (p : positive) (conn : Connection) (w : World) : World * result unit :=
  match Channel_Unsubscribe p conn w with
  | (w1, Err e) => (w1, Err e)
  | (w1, Ok _) =>
      match deref w1 p with
      | Some c => if negb (IsOccupied c) then (RemoveChannel p w1, Ok tt) else (w1, Ok tt)
      | None => (w1, Ok tt)
      end
  end.

(** [Application.Subscribe]. *)
Definition Subscribe (p : positive) (conn : Connection) (data : string)
    (w : World) : World * result unit :=
  Channel_Subscribe p conn data w.

(** ** Concrete inputs *)

Definition cfg0 : AppConfig := mkAppConfig "app" "1" "key" "secret" false true false true "".
Definition conn1 : Connection := mkConnection "sock-1" (fun _ => None) 0.
Definition bad_conn : Connection := mkConnection "sock-2" (fun _ => Some "broken pipe") 0.

(** Connect "sock-1", subscribe it to the public channel "room" through
    [FindOrCreateChannelByChannelID] and [Subscribe]. *)
Definition scenario_subscribed : World * positive :=
  let w1 := Connect conn1 (NewApplication cfg0) in
  let '(w2, p) := FindOrCreateChannelByChannelID "room" w1 in
  (fst (Subscribe p conn1 "" w2), p).

(** The Channel at an address, or a placeholder for a dangling one. *)
Definition chan_at (w : World) (p : positive) : Channel :=
  default (channel_New "" []) (deref w p).

(** "sock-1" connected, no channel yet. *)
Definition world_connected : World := Connect conn1 (NewApplication cfg0).

(** A channel "room" allocated by [channel.New] but never registered. *)
Definition world_unregistered : World :=
  fst (alloc (channel_New "room" app_channel_options) (NewApplication cfg0)).

(** ** Runs of the registry operations *)

(** The operations of the counter claim: the four Application methods and
    [channel.New], which allocates a Channel without touching the
    Application. *)
Inductive Op :=
| OpConnect (conn : Connection)
| OpDisconnect (socketID : string)
| OpAddChannel (p : positive)
| OpRemoveChannel (p : positive)
| OpNewChannel (n : string) (opts : list ChannelOption).

Definition run_op (o : Op) (w : World) : World :=
  match o with
  | OpConnect conn => Connect conn w
  | OpDisconnect sid => Disconnect sid w
  | OpAddChannel p => AddChannel p w
  | OpRemoveChannel p => RemoveChannel p w
  | OpNewChannel n opts => fst (alloc (channel_New n opts) w)
  end.

(** States reached from [NewApplication c] by any sequence of operations. *)
Inductive reachable (c : AppConfig) : World -> Prop :=
| reach_new : reachable c (NewApplication c)
| reach_op o w : reachable c w -> reachable c (run_op o w).

(** Calls that respect the connection registry: Connect of an unregistered
    socket identifier. *)
Definition conn_guard (o : Op) (w : World) : Prop :=
  match o with
  | OpConnect conn => connections w !! SocketID conn = None
  | _ => True
  end.

(** Calls that respect the channel registry: AddChannel of an unregistered
    identifier, RemoveChannel of a registered identifier. *)
Definition chan_guard (o : Op) (w : World) : Prop :=
  match o with
  | OpAddChannel p => exists c, deref w p = Some c /\ channels w !! ID c = None
  | OpRemoveChannel p => exists c, deref w p = Some c /\ is_Some (channels w !! ID c)
  | _ => True
  end.

(** States reached from [NewApplication c] by runs whose every call
    satisfies [g]. *)
Inductive reachable_under (g : Op -> World -> Prop) (c : AppConfig) : World -> Prop :=
| reachu_new : reachable_under g c (NewApplication c)
| reachu_op o w : reachable_under g c w -> g o w -> reachable_under g c (run_op o w).

(** A run that registers the public "room" and the presence channel
    "presence-x", removes "room", then connects "sock-1" twice. *)
Definition run_duplicate_connect : World :=
  run_op (OpConnect conn1) (run_op (OpConnect conn1)
  (run_op (OpRemoveChannel 1) (run_op (OpAddChannel 2)
  (run_op (OpNewChannel "presence-x" app_channel_options) (run_op (OpAddChannel 1)
  (run_op (OpNewChannel "room" app_channel_options) (NewApplication cfg0))))))).

(** A run that registers "room", removes it twice, then connects
    "sock-1". *)
Definition run_drifting_channels : World :=
  run_op (OpConnect conn1) (run_op (OpRemoveChannel 1) (run_op (OpRemoveChannel 1)
  (run_op (OpAddChannel 1)
  (run_op (OpNewChannel "room" app_channel_options) (NewApplication cfg0))))).

(** The counters against the registries. *)
Definition kind_sum (w : World) : Z :=
  (counter "TotalPresenceChannels" w + counter "TotalPrivateChannels" w
   + counter "TotalPublicChannels" w)%Z.

Definition counters_consistent (w : World) : Prop :=
  counter "TotalConnections" w = Z.of_nat (size (connections w)) /\
  counter "TotalChannels" w = Z.of_nat (size (channels w)) /\
  kind_sum w = counter "TotalChannels" w.

(** Every registered identifier is the identifier of the channel it maps to. *)
Definition registry_keyed_by_ID (w : World) : bool :=
  forallb (fun '(k, p) => match deref w p with
                          | Some c => String.eqb (ID c) k
                          | None => false
                          end) (map_to_list (channels w)).

(** The shape every state built by the operations keeps: registered
    identifiers name the channel they point to, allocated addresses are below
    the next fresh one, and connections are stored under their socket
    identifier. *)
Definition world_inv (w : World) : Prop :=
  (forall k p, channels w !! k = Some p -> exists c, heap w !! p = Some c /\ ID c = k) /\
  (forall q c, heap w !! q = Some c -> (q < next_ptr w)%positive) /\
  (forall k conn, connections w !! k = Some conn -> SocketID conn = k).

(** The socket [sid] is in no roster of the channel at [q]. *)
Definition no_sub (sid : string) (w : World) (q : positive) : Prop :=
  forall c, heap w !! q = Some c -> subscriptions c !! sid = None.

(** The loop of the filter queries, over the registry's entries. *)
Definition select (f : positive -> bool) (l : list (string * positive)) : list positive :=
  foldr (fun '(_, p) acc => if f p then p :: acc else acc) [] l.

(** Which kind counter a channel belongs to. *)
Definition kind_counter (c : Channel) : string :=
  if IsPresence c then "TotalPresenceChannels"
  else if IsPrivate c then "TotalPrivateChannels"
  else "TotalPublicChannels".

(** ** Facts about the embedding *)

Lemma counter_Stats_Add k k' d w :
  counter k (Stats_Add k' d w) = if decide (k' = k) then (counter k w + d)%Z else counter k w.
Proof.
  unfold counter, Stats_Add, set_Stats; simpl.
  rewrite lookup_insert. case_decide; subst; done.
Qed.

Lemma Stats_Add_regs k d w :
  channels (Stats_Add k d w) = channels w /\ connections (Stats_Add k d w) = connections w /\
  heap (Stats_Add k d w) = heap w.
Proof. done. Qed.

Lemma prefix_cons a b s1 s2 :
  String.prefix (String a s1) (String b s2) = if ascii_dec a b then String.prefix s1 s2 else false.
Proof. reflexivity. Qed.

(** The two restricted prefixes exclude each other. *)
Lemma presence_not_private c : IsPresence c = true -> IsPrivate c = false.
Proof.
  unfold IsPresence, IsPrivate. intros H.
  destruct (ID c) as [|a1 s1]; [discriminate H|]. rewrite prefix_cons in H |- *.
  destruct (ascii_dec "p" a1); [subst | discriminate H].
  destruct s1 as [|a2 s2]; [discriminate H|]. rewrite prefix_cons in H |- *.
  destruct (ascii_dec "r" a2); [subst | discriminate H].
  destruct s2 as [|a3 s3]; [discriminate H|]. rewrite prefix_cons in H |- *.
  destruct (ascii_dec "e" a3); [subst | discriminate H].
  reflexivity.
Qed.

Ltac counters_simpl :=
  repeat rewrite counter_Stats_Add;
  repeat match goal with
         | |- context [decide (?a = ?b)] =>
             destruct (decide (a = b)); [try discriminate | try congruence]
         end; cbn iota.

Lemma adjust_kind_counters_regs c d w :
  channels (adjust_kind_counters c d w) = channels w /\
  connections (adjust_kind_counters c d w) = connections w /\
  heap (adjust_kind_counters c d w) = heap w.
Proof.
  unfold adjust_kind_counters.
  destruct (IsPresence c), (IsPrivate c), (IsPublic c); done.
Qed.

Lemma adjust_kind_counters_total c d w :
  counter "TotalChannels" (adjust_kind_counters c d w) = (counter "TotalChannels" w + d)%Z /\
  kind_sum (adjust_kind_counters c d w) = (kind_sum w + d)%Z /\
  counter "TotalConnections" (adjust_kind_counters c d w) = counter "TotalConnections" w /\
  counter (kind_counter c) (adjust_kind_counters c d w) = (counter (kind_counter c) w + d)%Z.
Proof.
  unfold adjust_kind_counters, kind_sum, kind_counter, IsPublic.
  destruct (IsPresence c) eqn:Hp; [ rewrite (presence_not_private c Hp) | ];
  destruct (IsPrivate c); simpl; counters_simpl; lia.
Qed.

(** [Channel.Unsubscribe] only touches rosters and the hook queue. *)
Lemma fire_regs l cid s w :
  channels (fire l cid s w) = channels w /\ connections (fire l cid s w) = connections w /\
  Stats (fire l cid s w) = Stats w /\ heap (fire l cid s w) = heap w.
Proof. destruct l; done. Qed.

Lemma Channel_Unsubscribe_regs p conn w :
  channels (fst (Channel_Unsubscribe p conn w)) = channels w /\
  connections (fst (Channel_Unsubscribe p conn w)) = connections w /\
  Stats (fst (Channel_Unsubscribe p conn w)) = Stats w.
Proof.
  unfold Channel_Unsubscribe.
  destruct (heap w !! p) as [c|]; [|done].
  destruct (subscriptions c !! SocketID conn) as [s|]; [|done]. simpl.
  set (w1 := set_heap _ w).
  assert (H1 : channels w1 = channels w /\ connections w1 = connections w /\ Stats w1 = Stats w) by done.
  assert (H2 : forall w', channels w' = channels w /\ connections w' = connections w /\ Stats w' = Stats w ->
     forall l cid s, channels (fire l cid s w') = channels w /\ connections (fire l cid s w') = connections w /\
        Stats (fire l cid s w') = Stats w).
  { intros w' [? [? ?]] l cid s'. destruct (fire_regs l cid s' w') as [? [? [? ?]]]. repeat split; congruence. }
  destruct (IsPresence c), (negb (IsOccupied _)); auto.
Qed.

Lemma disconnect_loop_regs conn (l : list (string * positive)) w :
  let w' := foldl (fun w '(_, p) => disconnect_step conn w p) w l in
  channels w' = channels w /\ connections w' = connections w /\ Stats w' = Stats w.
Proof.
  revert w. induction l as [|[k p] l IH]; intros w; simpl; [done|].
  destruct (IH (disconnect_step conn w p)) as [H1 [H2 H3]].
  rewrite H1, H2, H3. unfold disconnect_step.
  destruct (deref w p) as [c|]; [|done].
  destruct (IsSubscribed c conn); [apply Channel_Unsubscribe_regs | done].
Qed.

(** *** Counters along runs *)

Lemma counters_consistent_ext w w' :
  Stats w' = Stats w -> connections w' = connections w -> channels w' = channels w ->
  counters_consistent w -> counters_consistent w'.
Proof. unfold counters_consistent, kind_sum, counter. intros -> -> ->. done. Qed.

Lemma Connect_counters conn w :
  counter "TotalConnections" (Connect conn w) = (counter "TotalConnections" w + 1)%Z /\
  counter "TotalChannels" (Connect conn w) = counter "TotalChannels" w /\
  kind_sum (Connect conn w) = kind_sum w.
Proof. unfold Connect, kind_sum. counters_simpl. done. Qed.

(** [Disconnect] either changes nothing but rosters and hooks, or also
    deletes one registered connection and decrements its counter. *)
Lemma Disconnect_cases sid w :
  (Stats (Disconnect sid w) = Stats w /\ connections (Disconnect sid w) = connections w /\
   channels (Disconnect sid w) = channels w) \/
  (exists k x, connections w !! k = Some x /\
   connections (Disconnect sid w) = delete k (connections w) /\
   channels (Disconnect sid w) = channels w /\
   counter "TotalConnections" (Disconnect sid w) = (counter "TotalConnections" w - 1)%Z /\
   counter "TotalChannels" (Disconnect sid w) = counter "TotalChannels" w /\
   kind_sum (Disconnect sid w) = kind_sum w).
Proof.
  unfold Disconnect, FindConnection.
  destruct (connections w !! sid) as [conn|] eqn:Hs; [|left; done].
  cbv zeta.
  destruct (disconnect_loop_regs conn (map_to_list (channels w)) w) as [H1 [H2 H3]].
  set (w1 := foldl _ w _) in *.
  destruct (connections w1 !! SocketID conn) as [x|] eqn:E.
  - right. exists (SocketID conn), x. rewrite H2 in E.
    unfold kind_sum. counters_simpl. unfold counter, set_connections in *; cbn [Stats connections channels]. rewrite H1, H2, H3. 
    repeat split; done.
  - left. done.
Qed.

Lemma AddChannel_counters p c w :
  deref w p = Some c ->
  channels (AddChannel p w) = <[ID c := p]> (channels w) /\
  connections (AddChannel p w) = connections w /\
  counter "TotalConnections" (AddChannel p w) = counter "TotalConnections" w /\
  counter "TotalChannels" (AddChannel p w) = (counter "TotalChannels" w + 1)%Z /\
  kind_sum (AddChannel p w) = (kind_sum w + 1)%Z.
Proof.
  intros Hp. unfold AddChannel. rewrite Hp.
  set (w1 := set_channels _ w).
  destruct (adjust_kind_counters_regs c 1 w1) as [Hc [Hn _]].
  destruct (adjust_kind_counters_total c 1 w1) as [Ht [Hk [Hcn _]]].
  rewrite Hc, Hn, Ht, Hk, Hcn. done.
Qed.

Lemma RemoveChannel_counters p c w :
  deref w p = Some c ->
  channels (RemoveChannel p w) = delete (ID c) (channels w) /\
  connections (RemoveChannel p w) = connections w /\
  heap (RemoveChannel p w) = heap w /\
  counter "TotalConnections" (RemoveChannel p w) = counter "TotalConnections" w /\
  counter "TotalChannels" (RemoveChannel p w) = (counter "TotalChannels" w - 1)%Z /\
  kind_sum (RemoveChannel p w) = (kind_sum w - 1)%Z /\
  counter (kind_counter c) (RemoveChannel p w) = (counter (kind_counter c) w - 1)%Z.
Proof.
  intros Hp. unfold RemoveChannel. rewrite Hp.
  set (w1 := set_channels _ w).
  destruct (adjust_kind_counters_regs c (-1) w1) as [Hc [Hn Hh]].
  destruct (adjust_kind_counters_total c (-1) w1) as [Ht [Hk [Hcn Hkc]]].
  rewrite Hc, Hn, Hh, Ht, Hk, Hcn, Hkc. done.
Qed.

Lemma run_op_kind_sum o w :
  kind_sum w = counter "TotalChannels" w ->
  kind_sum (run_op o w) = counter "TotalChannels" (run_op o w).
Proof.
  intros H. destruct o as [conn|sid|p|p|n opts]; simpl.
  - destruct (Connect_counters conn w) as [_ [-> ->]]. done.
  - destruct (Disconnect_cases sid w) as [[Hs _]|[k [x [_ [_ [_ [_ [-> ->]]]]]]]]; [|done].
    unfold kind_sum, counter in *. rewrite Hs. done.
  - destruct (deref w p) as [c|] eqn:Hp; [|unfold AddChannel; rewrite Hp; done].
    destruct (AddChannel_counters p c w Hp) as [_ [_ [_ [-> ->]]]]. lia.
  - destruct (deref w p) as [c|] eqn:Hp; [|unfold RemoveChannel; rewrite Hp; done].
    destruct (RemoveChannel_counters p c w Hp) as [_ [_ [_ [_ [-> [-> _]]]]]]. lia.
  - done.
Qed.

Lemma run_op_conn_counter o w :
  conn_guard o w ->
  counter "TotalConnections" w = Z.of_nat (size (connections w)) ->
  counter "TotalConnections" (run_op o w) = Z.of_nat (size (connections (run_op o w))).
Proof.
  intros Hg Hc. destruct o as [conn|sid|p|p|n opts]; simpl in *.
  - destruct (Connect_counters conn w) as [-> _].
    unfold Connect; simpl. rewrite map_size_insert_None by done. lia.
  - destruct (Disconnect_cases sid w) as [[Hs [Hn _]]|[k [x [Hx [-> [_ [-> _]]]]]]].
    + unfold counter in *. rewrite Hs, Hn. done.
    + rewrite map_size_delete_Some by eauto.
      pose proof (map_size_ne_0_lookup_2 (connections w) k ltac:(eauto)). lia.
  - destruct (deref w p) as [c|] eqn:Hp; [|unfold AddChannel; rewrite Hp; done].
    destruct (AddChannel_counters p c w Hp) as [_ [-> [-> _]]]. done.
  - destruct (deref w p) as [c|] eqn:Hp; [|unfold RemoveChannel; rewrite Hp; done].
    destruct (RemoveChannel_counters p c w Hp) as [_ [-> [_ [-> _]]]]. done.
  - done.
Qed.

Lemma run_op_chan_counter o w :
  chan_guard o w ->
  counter "TotalChannels" w = Z.of_nat (size (channels w)) ->
  counter "TotalChannels" (run_op o w) = Z.of_nat (size (channels (run_op o w))).
Proof.
  intros Hg Hc. destruct o as [conn|sid|p|p|n opts]; simpl in *.
  - destruct (Connect_counters conn w) as [_ [-> _]]. done.
  - destruct (Disconnect_cases sid w) as [[Hs [_ Hch]]|[k [x [_ [_ [-> [_ [-> _]]]]]]]].
    + unfold counter in *. rewrite Hs, Hch. done.
    + done.
  - destruct Hg as [c [Hp Hn]].
    destruct (AddChannel_counters p c w Hp) as [-> [_ [_ [-> _]]]].
    rewrite map_size_insert_None by done. lia.
  - destruct Hg as [c [Hp Hn]].
    destruct (RemoveChannel_counters p c w Hp) as [-> [_ [_ [_ [-> _]]]]].
    rewrite map_size_delete_Some by done.
    pose proof (map_size_ne_0_lookup_2 (channels w) (ID c) Hn). lia.
  - done.
Qed.

(** *** Channel.Unsubscribe results *)

Lemma Channel_Unsubscribe_err p conn w w1 e :
  Channel_Unsubscribe p conn w = (w1, Err e) -> w1 = w.
Proof.
  unfold Channel_Unsubscribe.
  destruct (heap w !! p) as [c|]; [|congruence].
  destruct (subscriptions c !! SocketID conn) as [s|]; [|congruence].
  destruct (IsPresence c), (negb _); intros H; inversion H.
Qed.

Lemma Channel_Unsubscribe_ok p conn w w1 u :
  Channel_Unsubscribe p conn w = (w1, Ok u) ->
  exists c, deref w p = Some c /\
    deref w1 p = Some (set_subscriptions (delete (SocketID conn) (subscriptions c)) c) /\
    channels w1 = channels w /\ Stats w1 = Stats w /\ connections w1 = connections w.
Proof.
  unfold Channel_Unsubscribe, deref.
  destruct (heap w !! p) as [c|]; [|congruence].
  destruct (subscriptions c !! SocketID conn) as [s|]; [|congruence].
  intros H. exists c. split; [done|].
  set (c' := set_subscriptions _ c) in H.
  set (w0 := set_heap (<[p:=c']> (heap w)) w) in H.
  assert (Hw0 : heap w0 !! p = Some c' /\ channels w0 = channels w /\ Stats w0 = Stats w /\
                connections w0 = connections w).
  { unfold w0; simpl. rewrite lookup_insert_eq. done. }
  assert (Hf : forall w' l cid s', heap w' !! p = Some c' /\ channels w' = channels w /\
                 Stats w' = Stats w /\ connections w' = connections w ->
               heap (fire l cid s' w') !! p = Some c' /\ channels (fire l cid s' w') = channels w /\
               Stats (fire l cid s' w') = Stats w /\ connections (fire l cid s' w') = connections w).
  { intros w' l cid s' [Ha [Hb [Hc Hd]]].
    destruct (fire_regs l cid s' w') as [Ha' [Hb' [Hc' Hd']]].
    rewrite Ha', Hb', Hc', Hd'. done. }
  destruct (IsPresence c), (negb (IsOccupied c')); inversion H; subst; auto.
Qed.

(** *** Filter queries *)

Lemma Channels_select w :
  fst (Channels w) = select (fun _ => true) (map_to_list (channels w)).
Proof.
  unfold Channels, select; simpl.
  induction (map_to_list (channels w)) as [|[k p] l IH]; simpl; congruence.
Qed.

Lemma kind_filter_select k w :
  fst (kind_filter k w) =
  select (fun p => match deref w p with Some c => k c | None => false end)
         (map_to_list (channels w)).
Proof.
  unfold kind_filter, select; simpl.
  induction (map_to_list (channels w)) as [|[key p] l IH]; simpl; [done|].
  rewrite IH. destruct (deref w p); done.
Qed.

Lemma elem_of_select f l p :
  p ∈ select f l <-> exists k, (k, p) ∈ l /\ f p = true.
Proof.
  induction l as [|[k q] l IH]; simpl.
  - split; [intros Hp; inversion Hp | intros [k [Hk _]]; inversion Hk].
  - destruct (f q) eqn:Hq.
    + rewrite elem_of_cons, IH. split.
      * intros [->|[k' [Hk' Hf]]]; [exists k; split; [left|]; done |].
        exists k'. split; [right|]; done.
      * intros [k' [Hk' Hf]]. apply elem_of_cons in Hk' as [Heq|Hk'].
        -- left. congruence.
        -- right. eauto.
    + rewrite IH. split.
      * intros [k' [Hk' Hf]]. exists k'. split; [right|]; done.
      * intros [k' [Hk' Hf]]. apply elem_of_cons in Hk' as [Heq|Hk'].
        -- inversion Heq; subst. congruence.
        -- eauto.
Qed.

Lemma NoDup_select f l :
  NoDup l ->
  (forall k1 k2 p, (k1, p) ∈ l -> (k2, p) ∈ l -> k1 = k2) ->
  NoDup (select f l).
Proof.
  induction l as [|[k p] l IH]; simpl; intros Hnd Hinj; [constructor|].
  apply NoDup_cons in Hnd as [Hnin Hnd].
  assert (IH' : NoDup (select f l)).
  { apply IH; [done|]. intros k1 k2 q H1 H2. apply (Hinj k1 k2 q); by right. }
  destruct (f p); [|done].
  constructor; [|done].
  intros Hin. apply elem_of_select in Hin as [k' [Hk' _]].
  assert (k' = k) as -> by (apply (Hinj k' k p); [by right | by left]).
  done.
Qed.

Lemma keyed_by_ID_lookup w k p :
  registry_keyed_by_ID w = true -> channels w !! k = Some p ->
  exists c, deref w p = Some c /\ ID c = k.
Proof.
  unfold registry_keyed_by_ID. intros Hw Hk.
  apply (proj2 (elem_of_map_to_list (channels w) k p)) in Hk.
  apply list_elem_of_In in Hk.
  pose proof (proj1 (forallb_forall _ _) Hw _ Hk) as Hc. simpl in Hc.
  destruct (deref w p) as [c|]; [|discriminate].
  exists c. split; [done|]. by apply String.eqb_eq.
Qed.

Lemma keyed_by_ID_inj w :
  registry_keyed_by_ID w = true ->
  forall k1 k2 p, (k1, p) ∈ map_to_list (channels w) -> (k2, p) ∈ map_to_list (channels w) -> k1 = k2.
Proof.
  intros Hw k1 k2 p H1 H2.
  apply elem_of_map_to_list in H1, H2.
  destruct (keyed_by_ID_lookup w k1 p Hw H1) as [c1 [Hc1 <-]].
  destruct (keyed_by_ID_lookup w k2 p Hw H2) as [c2 [Hc2 <-]].
  congruence.
Qed.

Lemma kind_filter_spec k w :
  registry_keyed_by_ID w = true ->
  snd (kind_filter k w) = w /\
  NoDup (fst (kind_filter k w)) /\
  (forall p, p ∈ fst (kind_filter k w) <->
     exists key c, channels w !! key = Some p /\ deref w p = Some c /\ k c = true).
Proof.
  intros Hw. split; [done|]. rewrite kind_filter_select. split.
  - apply NoDup_select; [apply NoDup_map_to_list | by apply keyed_by_ID_inj].
  - intros p. rewrite elem_of_select. split.
    + intros [key [Hkey Hf]]. apply elem_of_map_to_list in Hkey.
      destruct (deref w p) as [c|] eqn:Hc; [|discriminate]. eauto.
    + intros [key [c [Hkey [Hc Hk]]]]. exists key.
      split; [by apply elem_of_map_to_list|]. by rewrite Hc.
Qed.

(** *** RemoveChannel of an unregistered identifier *)

Lemma RemoveChannel_unregistered_iter p c w n :
  deref w p = Some c -> channels w !! ID c = None ->
  let w' := Nat.iter n (RemoveChannel p) w in
  channels w' = channels w /\ heap w' = heap w /\
  counter "TotalChannels" w' = (counter "TotalChannels" w - Z.of_nat n)%Z /\
  counter (kind_counter c) w' = (counter (kind_counter c) w - Z.of_nat n)%Z.
Proof.
  intros Hp Hn. induction n as [|n IH]; cbn zeta; [simpl; repeat split; lia|]. rewrite Nat.iter_succ.
  destruct IH as [Hc [Hh [Ht Hk]]].
  assert (Hp' : deref (Nat.iter n (RemoveChannel p) w) p = Some c) by (unfold deref in *; by rewrite Hh).
  destruct (RemoveChannel_counters p c _ Hp') as [Hc' [_ [Hh' [_ [Ht' [_ Hk']]]]]].
  rewrite Hc', Hh', Ht', Hk', Hc, Ht, Hk. rewrite delete_id by done.
  repeat split; [done | lia | lia].
Qed.

(** *** Heap effects of the Disconnect loop *)

Lemma fire_heap l cid s w : heap (fire l cid s w) = heap w /\ next_ptr (fire l cid s w) = next_ptr w.
Proof. destruct l; done. Qed.

Lemma Channel_Unsubscribe_heap p conn w :
  heap (fst (Channel_Unsubscribe p conn w)) =
    match heap w !! p with
    | Some c =>
        match subscriptions c !! SocketID conn with
        | Some _ => <[p := set_subscriptions (delete (SocketID conn) (subscriptions c)) c]> (heap w)
        | None => heap w
        end
    | None => heap w
    end /\
  next_ptr (fst (Channel_Unsubscribe p conn w)) = next_ptr w.
Proof.
  unfold Channel_Unsubscribe.
  destruct (heap w !! p) as [c|]; [|done].
  destruct (subscriptions c !! SocketID conn) as [s|]; [|done]. simpl.
  set (w1 := set_heap _ w).
  assert (Hf : forall w' l cid s', heap w' = heap w1 /\ next_ptr w' = next_ptr w ->
     heap (fire l cid s' w') = heap w1 /\ next_ptr (fire l cid s' w') = next_ptr w).
  { intros w' l cid s' [Ha Hb]. destruct (fire_heap l cid s' w') as [-> ->]. done. }
  assert (H1 : heap w1 = heap w1 /\ next_ptr w1 = next_ptr w) by done.
  destruct (IsPresence c), (negb (IsOccupied _)); simpl; auto.
Qed.

Lemma disconnect_step_heap conn w p :
  heap (disconnect_step conn w p) =
    match heap w !! p with
    | Some c =>
        match subscriptions c !! SocketID conn with
        | Some _ => <[p := set_subscriptions (delete (SocketID conn) (subscriptions c)) c]> (heap w)
        | None => heap w
        end
    | None => heap w
    end /\
  next_ptr (disconnect_step conn w p) = next_ptr w.
Proof.
  unfold disconnect_step, deref, IsSubscribed.
  destruct (heap w !! p) as [c|] eqn:Hp; [|done].
  case_bool_decide as Hs.
  - pose proof (Channel_Unsubscribe_heap p conn w) as H. rewrite Hp in H. exact H.
  - destruct (subscriptions c !! SocketID conn) eqn:E; [exfalso; apply Hs; eauto | done].
Qed.

Lemma no_sub_step sid conn w p q :
  no_sub sid w q -> no_sub sid (disconnect_step conn w p) q.
Proof.
  unfold no_sub. intros H c'. destruct (disconnect_step_heap conn w p) as [-> _].
  destruct (heap w !! p) as [c|] eqn:Hp; [|apply H].
  destruct (subscriptions c !! SocketID conn) as [s|]; [|apply H].
  destruct (decide (p = q)) as [<-|Hne].
  - rewrite lookup_insert_eq. intros [= <-]. simpl.
    rewrite lookup_delete. case_decide; [done|]. by apply H.
  - rewrite lookup_insert_ne by done. apply H.
Qed.

Lemma no_sub_step_self conn w p :
  no_sub (SocketID conn) (disconnect_step conn w p) p.
Proof.
  unfold no_sub. intros c'. destruct (disconnect_step_heap conn w p) as [-> _].
  destruct (heap w !! p) as [c|] eqn:Hp; [|congruence].
  destruct (subscriptions c !! SocketID conn) as [s|] eqn:E.
  - rewrite lookup_insert_eq. intros [= <-]. simpl. apply lookup_delete_eq.
  - rewrite Hp. intros [= <-]. exact E.
Qed.

Lemma no_sub_loop sid conn (l : list (string * positive)) w q :
  no_sub sid w q -> no_sub sid (foldl (fun w '(_, p) => disconnect_step conn w p) w l) q.
Proof.
  revert w. induction l as [|[k p] l IH]; intros w H; simpl; [done|].
  apply IH. by apply no_sub_step.
Qed.

Lemma disconnect_loop_clears conn (l : list (string * positive)) w k p :
  (k, p) ∈ l ->
  no_sub (SocketID conn) (foldl (fun w '(_, p) => disconnect_step conn w p) w l) p.
Proof.
  revert w. induction l as [|[k' p'] l IH]; intros w Hin; simpl;
    [by apply elem_of_nil in Hin|].
  apply elem_of_cons in Hin as [[= -> ->]|Hin].
  - apply no_sub_loop, no_sub_step_self.
  - by apply IH.
Qed.

(** The loop only shrinks rosters: allocated addresses stay allocated with
    the same identifier, and no address is allocated. *)
Lemma disconnect_loop_heap conn (l : list (string * positive)) w :
  let w' := foldl (fun w '(_, p) => disconnect_step conn w p) w l in
  (forall q, heap w !! q = None -> heap w' !! q = None) /\
  (forall q c, heap w !! q = Some c -> exists c', heap w' !! q = Some c' /\ ID c' = ID c) /\
  next_ptr w' = next_ptr w.
Proof.
  revert w. induction l as [|[k p] l IH]; intros w; simpl; [split; [done|]; split; [eauto|done]|].
  destruct (IH (disconnect_step conn w p)) as [H1 [H2 H3]].
  destruct (disconnect_step_heap conn w p) as [Hh Hn].
  rewrite H3, Hn. split; [|split; [|done]].
  - intros q Hq. apply H1. rewrite Hh.
    destruct (heap w !! p) as [c|] eqn:Hp; [|done].
    destruct (subscriptions c !! SocketID conn); [|done].
    rewrite lookup_insert_ne; [done|]. intros ->. congruence.
  - intros q c Hq. rewrite Hh in H2.
    destruct (heap w !! p) as [c0|] eqn:Hp; [|by apply H2].
    destruct (subscriptions c0 !! SocketID conn); [|by apply H2].
    destruct (decide (p = q)) as [<-|Hne].
    + rewrite Hp in Hq. injection Hq as <-.
      destruct (H2 p (set_subscriptions (delete (SocketID conn) (subscriptions c0)) c0))
        as (c' & Hc' & Hid); [by rewrite lookup_insert_eq|].
      exists c'. by rewrite Hid.
    + apply H2. by rewrite lookup_insert_ne.
Qed.

(** *** The shape invariant along runs *)

Lemma adjust_kind_counters_ptr c d w :
  next_ptr (adjust_kind_counters c d w) = next_ptr w.
Proof.
  unfold adjust_kind_counters.
  destruct (IsPresence c), (IsPrivate c), (IsPublic c); done.
Qed.

Lemma world_inv_heap w w' :
  channels w' = channels w -> connections w' = connections w ->
  (forall q, heap w !! q = None -> heap w' !! q = None) ->
  (forall q c, heap w !! q = Some c -> exists c', heap w' !! q = Some c' /\ ID c' = ID c) ->
  next_ptr w' = next_ptr w ->
  world_inv w -> world_inv w'.
Proof.
  intros Hch Hcn Hnone Hsome Hptr [Hk [Hb Hs]]. split; [|split].
  - intros k p. rewrite Hch. intros Hp.
    destruct (Hk k p Hp) as (c & Hc & <-).
    destruct (Hsome p c Hc) as (c' & ? & ?). eauto.
  - intros q c Hq. rewrite Hptr.
    destruct (heap w !! q) as [c0|] eqn:E; [by eapply Hb|].
    rewrite (Hnone q E) in Hq. discriminate.
  - rewrite Hcn. exact Hs.
Qed.

Lemma world_inv_new c : world_inv (NewApplication c).
Proof. split; [|split]; intros ??; simpl; rewrite lookup_empty; discriminate. Qed.

(** [Disconnect] as the code runs it, once the connection is found. *)
Lemma Disconnect_found sid conn w :
  connections w !! sid = Some conn ->
  let w1 := foldl (fun w '(_, p) => disconnect_step conn w p) w (map_to_list (channels w)) in
  Disconnect sid w =
    match connections w !! SocketID conn with
    | None => w1
    | Some _ => Stats_Add "TotalConnections" (-1)
                  (set_connections (delete (SocketID conn) (connections w)) w1)
    end.
Proof.
  intros Hs. unfold Disconnect, FindConnection. rewrite Hs. cbv zeta.
  destruct (disconnect_loop_regs conn (map_to_list (channels w)) w) as [_ [H2 _]].
  rewrite H2. done.
Qed.

Lemma world_inv_Disconnect sid w : world_inv w -> world_inv (Disconnect sid w).
Proof.
  intros Hi.
  destruct (connections w !! sid) as [conn|] eqn:Hs;
    [|unfold Disconnect, FindConnection; rewrite Hs; done].
  rewrite (Disconnect_found sid conn w Hs). cbv zeta.
  destruct (disconnect_loop_regs conn (map_to_list (channels w)) w) as [H1 [H2 _]].
  destruct (disconnect_loop_heap conn (map_to_list (channels w)) w) as [Hn [Hso Hp]].
  set (w1 := foldl _ w _) in *.
  assert (Hi1 : world_inv w1) by (eapply world_inv_heap; eauto).
  destruct (connections w !! SocketID conn); [|done].
  destruct Hi1 as [Hk [Hb Hc]]. split; [|split]; [exact Hk|exact Hb|].
  intros k x. simpl. rewrite lookup_delete.
  case_decide; [discriminate|]. rewrite <- H2. apply Hc.
Qed.

Lemma world_inv_run_op o w : world_inv w -> world_inv (run_op o w).
Proof.
  intros Hi. pose proof Hi as [Hk [Hb Hs]].
  destruct o as [conn|sid|p|p|n opts]; simpl.
  - split; [exact Hk|split; [exact Hb|]].
    intros k x. simpl. rewrite lookup_insert.
    case_decide; [intros [= <-]; done|apply Hs].
  - by apply world_inv_Disconnect.
  - unfold AddChannel, deref. destruct (heap w !! p) as [c|] eqn:Hp; [|done].
    set (w1 := set_channels _ w).
    destruct (adjust_kind_counters_regs c 1 w1) as [Hc [Hn Hh]].
    pose proof (adjust_kind_counters_ptr c 1 w1) as Hptr.
    split; [|split]; rewrite ?Hc, ?Hn, ?Hh, ?Hptr; simpl; [|exact Hb|exact Hs].
    intros k q. rewrite lookup_insert. case_decide as E; [intros [= <-]; subst; eauto|apply Hk].
  - unfold RemoveChannel, deref. destruct (heap w !! p) as [c|] eqn:Hp; [|done].
    set (w1 := set_channels _ w).
    destruct (adjust_kind_counters_regs c (-1) w1) as [Hc [Hn Hh]].
    pose proof (adjust_kind_counters_ptr c (-1) w1) as Hptr.
    split; [|split]; rewrite ?Hc, ?Hn, ?Hh, ?Hptr; simpl; [|exact Hb|exact Hs].
    intros k q. rewrite lookup_delete. case_decide; [discriminate|apply Hk].
  - split; [|split]; simpl; [| |exact Hs].
    + intros k q Hq. destruct (Hk k q Hq) as (c & Hc & Hid). exists c.
      rewrite lookup_insert. case_decide as E; [|done].
      rewrite <- E in Hc. specialize (Hb _ _ Hc). lia.
    + intros q c. rewrite lookup_insert. case_decide as E; [subst; lia|].
      intros Hq. specialize (Hb _ _ Hq). lia.
Qed.

Lemma reachable_inv c w : reachable c w -> world_inv w.
Proof.
  induction 1; [apply world_inv_new|by apply world_inv_run_op].
Qed.

(** Under the invariant the socket [Disconnect] looks up is the one it deletes. *)
Lemma Disconnect_inv sid w conn :
  world_inv w -> connections w !! sid = Some conn ->
  connections (Disconnect sid w) = delete sid (connections w).
Proof.
  intros [_ [_ Hs]] Hc. pose proof (Hs _ _ Hc) as Hid.
  rewrite (Disconnect_found sid conn w Hc). cbv zeta. rewrite Hid, Hc. done.
Qed.

Lemma Disconnect_unknown sid w :
  connections w !! sid = None -> Disconnect sid w = w.
Proof. intros H. unfold Disconnect, FindConnection. rewrite H. done. Qed.

(** *** Counters *)

Lemma counter_adjust k c d w :
  counter k (adjust_kind_counters c d w) =
    (counter k w + (if decide (k = "TotalChannels") then d else 0)
                 + (if decide (k = kind_counter c) then d else 0))%Z.
Proof.
  unfold adjust_kind_counters, kind_counter, IsPublic.
  destruct (IsPresence c) eqn:Hp; [rewrite (presence_not_private c Hp)|];
  destruct (IsPrivate c); simpl; rewrite ?counter_Stats_Add;
  repeat case_decide; subst; try discriminate; try congruence; lia.
Qed.

Lemma counter_set_channels k m w : counter k (set_channels m w) = counter k w.
Proof. done. Qed.

(** *** The three kinds split every registered channel *)

Lemma select_partition (f g h : positive -> bool) (l : list (string * positive)) :
  (forall k p, (k, p) ∈ l ->
     ((if f p then 1 else 0) + (if g p then 1 else 0) + (if h p then 1 else 0) = 1)%nat) ->
  (length (select f l) + length (select g l) + length (select h l) =
   length (select (fun _ => true) l))%nat.
Proof.
  induction l as [|[k p] l IH]; simpl; intros H; [done|].
  pose proof (H k p ltac:(by left)) as Hp.
  assert (IH' : (length (select f l) + length (select g l) + length (select h l) =
                 length (select (fun _ => true) l))%nat)
    by (apply IH; intros k' q Hq; apply (H k' q); by right).
  destruct (f p), (g p), (h p); simpl in *; lia.
Qed.

Lemma kind_exactly_one c :
  ((if IsPresence c then 1 else 0) + (if IsPrivate c then 1 else 0) +
   (if IsPublic c then 1 else 0) = 1)%nat.
Proof.
  unfold IsPublic. destruct (IsPresence c) eqn:Hp;
    [rewrite (presence_not_private c Hp)|]; destruct (IsPrivate c); done.
Qed.

(** Builds a [reachable_under] derivation along a concrete run, checking
    each guard by evaluation. *)
Ltac reach_run :=
  repeat (apply reachu_op;
          [| hnf;
             first [ exact I
                   | vm_compute; reflexivity
                   | match goal with
                     | |- exists c, deref ?w ?p = Some c /\ _ =>
                         exists (chan_at w p);
                         split; [vm_compute; reflexivity
                                | vm_compute; first [reflexivity | eexists; reflexivity]]
                     end ] ]);
  apply reachu_new.

(** ** Claims *)

(** C1 (code defect): after [Connect "sock-1"] and subscribing it to the
    public channel "room", [Disconnect "sock-1"] empties the roster of
    "room" (it fires Vacated) but leaves "room" in the channel registry:
    [FindChannelByChannelID "room"] still succeeds. [Disconnect] calls
    [Channel.Unsubscribe] where [Application.Unsubscribe] would also have
    removed the vacated channel. *)
Lemma C1_disconnect_keeps_vacated_channel :
  let w := fst scenario_subscribed in
  let p := snd scenario_subscribed in
  let w' := Disconnect "sock-1" w in
  option_map (fun c => IsSubscribed c conn1) (deref w p) = Some true /\
  option_map (fun c => IsSubscribed c conn1) (deref w' p) = Some false /\
  option_map IsOccupied (deref w' p) = Some false /\
  FindChannelByChannelID "room" w' = Ok p.
Proof. vm_compute. repeat split. Qed.

(** C3 (counterexample): [RemoveChannel] deletes a channel that is
    occupied: "room" has the member "sock-1" and is gone from the
    registry afterwards. *)
Lemma C3_RemoveChannel_deletes_occupied :
  let w := fst scenario_subscribed in
  let p := snd scenario_subscribed in
  option_map IsOccupied (deref w p) = Some true /\
  FindChannelByChannelID "room" w = Ok p /\
  FindChannelByChannelID "room" (RemoveChannel p w) = Err "channel does not exists".
Proof. vm_compute. repeat split. Qed.

(** C3 (amended): [RemoveChannel] does not look at the roster: for every
    channel, occupied or not, it deletes the channel's identifier from the
    registry, lowers TotalChannels and the counter of the channel's kind by
    one (every other counter unchanged), and leaves the channel object,
    roster included, unchanged. Keeping occupied channels registered is left
    to the caller: [Application.Unsubscribe] calls [RemoveChannel] only when
    the channel is unoccupied after [Channel.Unsubscribe], so whenever the
    channel it leaves behind is occupied the registry is unchanged. *)
Lemma C3_RemoveChannel_unconditional w p c :
  deref w p = Some c ->
  channels (RemoveChannel p w) = delete (ID c) (channels w) /\
  FindChannelByChannelID (ID c) (RemoveChannel p w) = Err "channel does not exists" /\
  heap (RemoveChannel p w) = heap w /\
  (forall k, counter k (RemoveChannel p w) =
     (counter k w - (if decide (k = "TotalChannels") then 1 else 0)
                  - (if decide (k = kind_counter c) then 1 else 0))%Z) /\
  (forall conn w' r c', Unsubscribe p conn w = (w', r) ->
     deref w' p = Some c' -> IsOccupied c' = true -> channels w' = channels w).
Proof.
  intros Hp.
  destruct (adjust_kind_counters_regs c (-1) (set_channels (delete (ID c) (channels w)) w))
    as [Hc [_ Hh]].
  split; [unfold RemoveChannel; rewrite Hp; by rewrite Hc|].
  split; [unfold FindChannelByChannelID, RemoveChannel; rewrite Hp, Hc; simpl;
          by rewrite lookup_delete_eq|].
  split; [unfold RemoveChannel; rewrite Hp; by rewrite Hh|].
  split.
  - intros k. unfold RemoveChannel. rewrite Hp, counter_adjust, counter_set_channels.
    repeat case_decide; lia.
  - intros conn w' r c' HU Hd Ho. unfold Unsubscribe in HU.
    destruct (Channel_Unsubscribe p conn w) as [w1 [u|e]] eqn:E.
    + destruct (Channel_Unsubscribe_ok p conn w w1 u E) as (c0 & _ & Hd1 & Hch1 & _).
      rewrite Hd1 in HU.
      destruct (negb (IsOccupied _)) eqn:Hocc; injection HU as <- <-; [|done].
      exfalso.
      destruct (RemoveChannel_counters p _ w1 Hd1) as [_ [_ [Hh1 _]]].
      unfold deref in Hd, Hd1. rewrite Hh1, Hd1 in Hd. injection Hd as <-.
      rewrite Ho in Hocc. discriminate.
    + injection HU as <- <-. by rewrite (Channel_Unsubscribe_err p conn w w1 e E).
Qed.

(** C4: disconnecting a socket identifier that is not registered leaves the
    whole state unchanged (registries, rosters, counters, hook queue). *)
Lemma C4_Disconnect_unknown_noop w sid :
  connections w !! sid = None -> Disconnect sid w = w.
Proof. intros H. unfold Disconnect, FindConnection. by rewrite H. Qed.

(** C6: [FindOrCreateChannelByChannelID n] returns the registered channel
    without any change when [n] is registered; otherwise it allocates a new
    channel [n] with the five listeners, registers it under [n] and returns
    it, so that [FindChannelByChannelID n] then finds it. *)
Lemma C6_FindOrCreate w n :
  heap w !! next_ptr w = None ->
  (forall p, channels w !! n = Some p -> FindOrCreateChannelByChannelID n w = (w, p)) /\
  (channels w !! n = None ->
   let '(w', p) := FindOrCreateChannelByChannelID n w in
   deref w p = None /\
   deref w' p = Some (channel_New n app_channel_options) /\
   ID (channel_New n app_channel_options) = n /\
   listeners (channel_New n app_channel_options) =
     mkListeners (Some TriggerChannelOccupiedHook) (Some TriggerChannelVacatedHook)
       (Some TriggerMemberAddedHook) (Some TriggerMemberRemovedHook)
       (Some TriggerClientEventHook) /\
   channels w' = <[n := p]> (channels w) /\
   FindChannelByChannelID n w' = Ok p).
Proof.
  intros Hfresh. split.
  - intros p Hp. unfold FindOrCreateChannelByChannelID, FindChannelByChannelID.
    by rewrite Hp.
  - intros Hn. unfold FindOrCreateChannelByChannelID, FindChannelByChannelID.
    rewrite Hn. unfold alloc. cbv beta iota.
    set (c := channel_New n app_channel_options).
    set (w1 := mkWorld _ _ _ _ _ _ _).
    assert (Hd : deref w1 (next_ptr w) = Some c).
    { unfold deref, w1; simpl. apply lookup_insert_eq. }
    unfold AddChannel. rewrite Hd.
    destruct (adjust_kind_counters_regs c 1 (set_channels (<[ID c := next_ptr w]> (channels w1)) w1))
      as [Hc [_ Hh]].
    unfold deref in *. rewrite Hc, Hh. simpl.
    repeat split; try done.
    all: rewrite lookup_insert_eq; done.
Qed.

(** C7: [Connection.Publish] returns nothing (no error value) and leaves the
    connection as it was, whether the write succeeds or fails; a failed
    write produces one error log entry. *)
Lemma C7_Publish_swallows_write_error conn m :
  fst (fst (Connection_Publish conn m)) = conn /\
  snd (fst (Connection_Publish conn m)) = tt /\
  (forall err, Socket_ conn m = Some err ->
     snd (Connection_Publish conn m) = [LogError ("error writing json into Socket, " ++ err)]) /\
  (Socket_ conn m = None -> snd (Connection_Publish conn m) = []).
Proof.
  unfold Connection_Publish.
  destruct (Socket_ conn m) as [e|]; simpl; repeat split; congruence.
Qed.

(** C9: connecting a socket identifier that is already registered replaces
    the registry entry and still increments TotalConnections: the counter
    grows while the registry does not. *)
Lemma C9_Connect_duplicate w conn :
  is_Some (connections w !! SocketID conn) ->
  connections (Connect conn w) = <[SocketID conn := conn]> (connections w) /\
  size (connections (Connect conn w)) = size (connections w) /\
  counter "TotalConnections" (Connect conn w) = (counter "TotalConnections" w + 1)%Z.
Proof.
  intros H. unfold Connect. split; [done|]. split.
  - simpl. by apply map_size_insert_Some.
  - rewrite counter_Stats_Add. rewrite decide_True by done. done.
Qed.

(** C2 (counterexample): the counters are not kept equal to the registries
    by every run: connecting "sock-1" twice leaves one registered connection
    and TotalConnections = 2. *)
Lemma C2_counters_drift :
  ~ (forall w, reachable cfg0 w -> counters_consistent w).
Proof.
  intros H.
  destruct (H (Connect conn1 (Connect conn1 (NewApplication cfg0)))) as [Hc _].
  - apply (reach_op cfg0 (OpConnect conn1)), (reach_op cfg0 (OpConnect conn1)), reach_new.
  - vm_compute in Hc. discriminate Hc.
Qed.

(** C2 (amended): from a fresh Application, TotalConnections equals the
    number of registered connections after every run in which Connect is
    only called on unregistered socket identifiers; TotalChannels equals the
    number of registered channels after every run in which AddChannel is
    only called on unregistered channel identifiers and RemoveChannel only
    on registered ones; the presence, private and public counters sum to
    TotalChannels after every run of the four operations. *)
Lemma C2_counter_invariants :
  (forall a w, reachable_under conn_guard a w ->
     counter "TotalConnections" w = Z.of_nat (size (connections w))) /\
  (forall a w, reachable_under chan_guard a w ->
     counter "TotalChannels" w = Z.of_nat (size (channels w))) /\
  (forall a w, reachable a w -> kind_sum w = counter "TotalChannels" w).
Proof.
  split; [|split].
  - intros a w Hr. induction Hr as [|o w Hr IH Hg]; [done|].
    by apply run_op_conn_counter.
  - intros a w Hr. induction Hr as [|o w Hr IH Hg]; [done|].
    by apply run_op_chan_counter.
  - intros a w Hr. induction Hr as [|o w Hr IH]; [done|].
    by apply run_op_kind_sum.
Qed.

Lemma C2_counter_invariants_witness :
  reachable_under conn_guard cfg0 run_drifting_channels /\
  counter "TotalConnections" run_drifting_channels = 1%Z /\
  counter "TotalConnections" run_drifting_channels =
    Z.of_nat (size (connections run_drifting_channels)) /\
  reachable_under chan_guard cfg0 run_duplicate_connect /\
  counter "TotalChannels" run_duplicate_connect = 1%Z /\
  counter "TotalChannels" run_duplicate_connect =
    Z.of_nat (size (channels run_duplicate_connect)) /\
  reachable cfg0 run_duplicate_connect /\
  counter "TotalPresenceChannels" run_duplicate_connect = 1%Z /\
  kind_sum run_duplicate_connect = counter "TotalChannels" run_duplicate_connect /\
  reachable cfg0 run_drifting_channels /\
  counter "TotalChannels" run_drifting_channels = (-1)%Z /\
  kind_sum run_drifting_channels = counter "TotalChannels" run_drifting_channels.
Proof.
  assert (H1 : reachable_under conn_guard cfg0 run_drifting_channels)
    by (unfold run_drifting_channels; reach_run).
  assert (H2 : reachable_under chan_guard cfg0 run_duplicate_connect)
    by (unfold run_duplicate_connect; reach_run).
  assert (H3 : reachable cfg0 run_duplicate_connect)
    by (unfold run_duplicate_connect; repeat apply reach_op; apply reach_new).
  assert (H4 : reachable cfg0 run_drifting_channels)
    by (unfold run_drifting_channels; repeat apply reach_op; apply reach_new).
  destruct C2_counter_invariants as [Hc [Hch Hk]].
  split; [exact H1|]. split; [vm_compute; reflexivity|]. split; [exact (Hc _ _ H1)|].
  split; [exact H2|]. split; [vm_compute; reflexivity|]. split; [exact (Hch _ _ H2)|].
  split; [exact H3|]. split; [vm_compute; reflexivity|]. split; [exact (Hk _ _ H3)|].
  split; [exact H4|]. split; [vm_compute; reflexivity|]. exact (Hk _ _ H4).
Defined.

(** C5: when [Channel.Unsubscribe] fails, [Application.Unsubscribe] returns
    its error and the state is unchanged (registry and counters included);
    when it succeeds, [Application.Unsubscribe] succeeds, and the channel is
    removed from the registry when it is unoccupied afterwards and the
    registry and counters are left as they were when it is still occupied. *)
Lemma C5_Unsubscribe w p conn c :
  deref w p = Some c ->
  match Channel_Unsubscribe p conn w with
  | (w1, Err e) => w1 = w /\ Unsubscribe p conn w = (w, Err e)
  | (w1, Ok _) =>
      snd (Unsubscribe p conn w) = Ok tt /\
      exists c1, deref w1 p = Some c1 /\ ID c1 = ID c /\
        (IsOccupied c1 = false ->
           channels (fst (Unsubscribe p conn w)) = delete (ID c) (channels w) /\
           FindChannelByChannelID (ID c) (fst (Unsubscribe p conn w)) = Err "channel does not exists") /\
        (IsOccupied c1 = true ->
           channels (fst (Unsubscribe p conn w)) = channels w /\
           Stats (fst (Unsubscribe p conn w)) = Stats w)
  end.
Proof.
  intros Hp. unfold Unsubscribe.
  destruct (Channel_Unsubscribe p conn w) as [w1 [u|e]] eqn:E.
  - destruct (Channel_Unsubscribe_ok p conn w w1 u E) as [c0 [Hc0 [Hd1 [Hch [HS _]]]]].
    rewrite Hp in Hc0. injection Hc0 as <-.
    rewrite Hd1.
    set (c1 := set_subscriptions _ c).
    split; [destruct (negb (IsOccupied c1)); done|].
    exists c1. split; [done|]. split; [done|]. split.
    + intros Ho. rewrite Ho. simpl.
      destruct (RemoveChannel_counters p c1 w1 Hd1) as [Hc' _].
      rewrite Hc', Hch. simpl. split; [done|].
      unfold FindChannelByChannelID. rewrite Hc', lookup_delete_eq. done.
    + intros Ho. rewrite Ho. simpl. done.
  - split; [by eapply Channel_Unsubscribe_err|].
    by rewrite (Channel_Unsubscribe_err p conn w w1 e E).
Qed.

(** C8: on a registry keyed by channel identifiers (as [AddChannel] keeps
    it), [Channels] lists every registered channel once and the three kind
    queries list exactly the registered channels of their kind, each once;
    none of the four changes the state. *)
Lemma C8_filter_queries w :
  registry_keyed_by_ID w = true ->
  snd (Channels w) = w /\
  NoDup (fst (Channels w)) /\
  (forall p, p ∈ fst (Channels w) <-> exists key, channels w !! key = Some p) /\
  snd (PresenceChannels w) = w /\
  NoDup (fst (PresenceChannels w)) /\
  (forall p, p ∈ fst (PresenceChannels w) <->
     exists key c, channels w !! key = Some p /\ deref w p = Some c /\ IsPresence c = true) /\
  snd (PrivateChannels w) = w /\
  NoDup (fst (PrivateChannels w)) /\
  (forall p, p ∈ fst (PrivateChannels w) <->
     exists key c, channels w !! key = Some p /\ deref w p = Some c /\ IsPrivate c = true) /\
  snd (PublicChannels w) = w /\
  NoDup (fst (PublicChannels w)) /\
  (forall p, p ∈ fst (PublicChannels w) <->
     exists key c, channels w !! key = Some p /\ deref w p = Some c /\ IsPublic c = true).
Proof.
  intros Hw.
  destruct (kind_filter_spec IsPresence w Hw) as [Hs1 [Hn1 He1]].
  destruct (kind_filter_spec IsPrivate w Hw) as [Hs2 [Hn2 He2]].
  destruct (kind_filter_spec IsPublic w Hw) as [Hs3 [Hn3 He3]].
  unfold PresenceChannels, PrivateChannels, PublicChannels.
  split; [done|]. rewrite Channels_select. split.
  - apply NoDup_select; [apply NoDup_map_to_list | by apply keyed_by_ID_inj].
  - split; [|tauto].
    intros p. rewrite elem_of_select. split.
    + intros [key [Hkey _]]. exists key. by apply elem_of_map_to_list.
    + intros [key Hkey]. exists key. split; [by apply elem_of_map_to_list | done].
Qed.

(** C10: removing a channel whose identifier is not registered, [n] times
    in a row, leaves the registry as it is and lowers TotalChannels and the
    counter of the channel's kind by [n]. *)
Lemma C10_RemoveChannel_unregistered w p c n :
  deref w p = Some c -> channels w !! ID c = None ->
  let w' := Nat.iter n (RemoveChannel p) w in
  channels w' = channels w /\
  counter "TotalChannels" w' = (counter "TotalChannels" w - Z.of_nat n)%Z /\
  counter (kind_counter c) w' = (counter (kind_counter c) w - Z.of_nat n)%Z.
Proof.
  intros Hp Hn.
  destruct (RemoveChannel_unregistered_iter p c w n Hp Hn) as [H1 [_ [H2 H3]]].
  done.
Qed.

(** ** Witnesses: each theorem with a hypothesis, at a concrete state *)

Lemma C3_RemoveChannel_unconditional_witness :
  deref (fst scenario_subscribed) (snd scenario_subscribed) =
    Some (chan_at (fst scenario_subscribed) (snd scenario_subscribed)) /\
  IsOccupied (chan_at (fst scenario_subscribed) (snd scenario_subscribed)) = true /\
  channels (RemoveChannel (snd scenario_subscribed) (fst scenario_subscribed)) =
    delete "room" (channels (fst scenario_subscribed)) /\
  counter "TotalChannels" (fst scenario_subscribed) = 1%Z /\
  counter "TotalChannels" (RemoveChannel (snd scenario_subscribed) (fst scenario_subscribed)) = 0%Z.
Proof.
  assert (E : deref (fst scenario_subscribed) (snd scenario_subscribed) =
              Some (chan_at (fst scenario_subscribed) (snd scenario_subscribed)))
    by (vm_compute; reflexivity).
  destruct (C3_RemoveChannel_unconditional _ _ _ E) as [Hc [_ [_ [Hk _]]]].
  split; [exact E|]. split; [vm_compute; reflexivity|].
  split; [exact Hc|]. split; [vm_compute; reflexivity|].
  rewrite Hk. vm_compute. reflexivity.
Defined.

Lemma C4_Disconnect_unknown_noop_witness :
  connections (fst scenario_subscribed) !! "sock-9" = None /\
  Disconnect "sock-9" (fst scenario_subscribed) = fst scenario_subscribed.
Proof.
  assert (E : connections (fst scenario_subscribed) !! "sock-9" = None) by (vm_compute; reflexivity).
  split; [exact E|]. exact (C4_Disconnect_unknown_noop _ _ E).
Defined.

Lemma C5_Unsubscribe_witness :
  let w := fst scenario_subscribed in
  let p := snd scenario_subscribed in
  deref w p = Some (chan_at w p) /\
  match Channel_Unsubscribe p conn1 w with
  | (w1, Err e) => w1 = w /\ Unsubscribe p conn1 w = (w, Err e)
  | (w1, Ok _) =>
      snd (Unsubscribe p conn1 w) = Ok tt /\
      exists c1, deref w1 p = Some c1 /\ ID c1 = ID (chan_at w p) /\
        (IsOccupied c1 = false ->
           channels (fst (Unsubscribe p conn1 w)) = delete (ID (chan_at w p)) (channels w) /\
           FindChannelByChannelID (ID (chan_at w p)) (fst (Unsubscribe p conn1 w)) =
             Err "channel does not exists") /\
        (IsOccupied c1 = true ->
           channels (fst (Unsubscribe p conn1 w)) = channels w /\
           Stats (fst (Unsubscribe p conn1 w)) = Stats w)
  end.
Proof.
  cbv zeta.
  assert (E : deref (fst scenario_subscribed) (snd scenario_subscribed) =
              Some (chan_at (fst scenario_subscribed) (snd scenario_subscribed)))
    by (vm_compute; reflexivity).
  split; [exact E|]. exact (C5_Unsubscribe _ _ conn1 _ E).
Defined.

Lemma C6_FindOrCreate_witness :
  heap world_connected !! next_ptr world_connected = None /\
  channels world_connected !! "room" = None /\
  FindChannelByChannelID "room" (fst (FindOrCreateChannelByChannelID "room" world_connected)) =
    Ok (snd (FindOrCreateChannelByChannelID "room" world_connected)).
Proof.
  assert (E : heap world_connected !! next_ptr world_connected = None) by (vm_compute; reflexivity).
  assert (En : channels world_connected !! "room" = None) by (vm_compute; reflexivity).
  split; [exact E|]. split; [exact En|].
  pose proof (proj2 (C6_FindOrCreate world_connected "room" E) En) as H.
  destruct (FindOrCreateChannelByChannelID "room" world_connected) as [w' p].
  exact (proj2 (proj2 (proj2 (proj2 (proj2 H))))).
Defined.

Lemma C8_filter_queries_witness :
  registry_keyed_by_ID (fst scenario_subscribed) = true /\
  NoDup (fst (PublicChannels (fst scenario_subscribed))).
Proof.
  assert (E : registry_keyed_by_ID (fst scenario_subscribed) = true) by (vm_compute; reflexivity).
  split; [exact E|].
  destruct (C8_filter_queries _ E) as (_ & _ & _ & _ & _ & _ & _ & _ & _ & _ & H & _).
  exact H.
Defined.

Lemma C9_Connect_duplicate_witness :
  is_Some (connections world_connected !! SocketID conn1) /\
  size (connections (Connect conn1 world_connected)) = size (connections world_connected) /\
  counter "TotalConnections" (Connect conn1 world_connected) = 2%Z.
Proof.
  assert (E : is_Some (connections world_connected !! SocketID conn1)) by (vm_compute; eauto).
  destruct (C9_Connect_duplicate world_connected conn1 E) as [_ [Hs Hc]].
  split; [exact E|]. split; [exact Hs|]. rewrite Hc. vm_compute. reflexivity.
Defined.

Lemma C10_RemoveChannel_unregistered_witness :
  deref world_unregistered 1 = Some (channel_New "room" app_channel_options) /\
  channels world_unregistered !! ID (channel_New "room" app_channel_options) = None /\
  counter "TotalChannels" (Nat.iter 2 (RemoveChannel 1) world_unregistered) = (-2)%Z /\
  counter "TotalPublicChannels" (Nat.iter 2 (RemoveChannel 1) world_unregistered) = (-2)%Z.
Proof.
  assert (E : deref world_unregistered 1 = Some (channel_New "room" app_channel_options))
    by (vm_compute; reflexivity).
  assert (En : channels world_unregistered !! ID (channel_New "room" app_channel_options) = None)
    by (vm_compute; reflexivity).
  destruct (C10_RemoveChannel_unregistered world_unregistered 1 _ 2 E En) as [_ [Ht Hk]].
  split; [exact E|]. split; [exact En|]. split.
  - rewrite Ht. vm_compute. reflexivity.
  - change "TotalPublicChannels" with (kind_counter (channel_New "room" app_channel_options)).
    rewrite Hk. vm_compute. reflexivity.
Defined.

(** ** Further properties of the Application methods *)

(** [New] then [Connect] then [FindConnection]: the new connection is found
    under its socket identifier, and every other identifier resolves as
    before. *)
Lemma X1_Connect_FindConnection socketID s now sid w :
  FindConnection sid (Connect (connection_New socketID s now) w) =
    if String.eqb sid socketID then Ok (connection_New socketID s now)
    else FindConnection sid w.
Proof.
  unfold FindConnection, Connect. simpl. rewrite lookup_insert.
  destruct (String.eqb_spec sid socketID); case_decide; subst; congruence.
Qed.

(** Connecting a socket that was not registered and then disconnecting it
    gives back the connection registry, the channel registry and every
    counter value. *)
Lemma X2_Connect_Disconnect_roundtrip w conn :
  connections w !! SocketID conn = None ->
  connections (Disconnect (SocketID conn) (Connect conn w)) = connections w /\
  channels (Disconnect (SocketID conn) (Connect conn w)) = channels w /\
  (forall k, counter k (Disconnect (SocketID conn) (Connect conn w)) = counter k w).
Proof.
  intros H.
  assert (Hc : connections (Connect conn w) !! SocketID conn = Some conn)
    by (simpl; apply lookup_insert_eq).
  rewrite (Disconnect_found _ _ _ Hc). cbv zeta. rewrite Hc.
  destruct (disconnect_loop_regs conn (map_to_list (channels (Connect conn w))) (Connect conn w))
    as [H1 [_ H3]].
  set (w1 := foldl _ _ _) in *.
  split; [|split].
  - simpl. by apply delete_insert_id.
  - simpl. rewrite H1. done.
  - intros k. rewrite counter_Stats_Add.
    assert (E : counter k (set_connections (delete (SocketID conn) (connections (Connect conn w))) w1)
                = counter k (Connect conn w)).
    { unfold counter, set_connections. cbn [Stats]. by rewrite H3. }
    rewrite E. unfold Connect. rewrite counter_Stats_Add.
    change (counter k (set_connections ?m w)) with (counter k w).
    case_decide; lia.
Qed.

(** In every state built by the Application methods, after [Disconnect sid]
    the socket can no longer be found, and disconnecting it again changes
    nothing. *)
Lemma X3_Disconnect_forgets_socket c w sid :
  reachable c w ->
  FindConnection sid (Disconnect sid w) = Err "connection not found" /\
  Disconnect sid (Disconnect sid w) = Disconnect sid w.
Proof.
  intros Hr. pose proof (reachable_inv c w Hr) as Hi.
  assert (H : connections (Disconnect sid w) !! sid = None).
  { destruct (connections w !! sid) as [conn|] eqn:E.
    - rewrite (Disconnect_inv sid w conn Hi E). apply lookup_delete_eq.
    - by rewrite Disconnect_unknown. }
  split; [unfold FindConnection; by rewrite H | by apply Disconnect_unknown].
Qed.

(** [Disconnect] never touches the channel registry or any counter but
    TotalConnections, and never removes or renames a channel on the heap. *)
Lemma X4_Disconnect_keeps_channels sid w :
  channels (Disconnect sid w) = channels w /\
  (forall k, k <> "TotalConnections" -> counter k (Disconnect sid w) = counter k w) /\
  (forall p c, deref w p = Some c ->
     exists c', deref (Disconnect sid w) p = Some c' /\ ID c' = ID c).
Proof.
  destruct (connections w !! sid) as [conn|] eqn:Hs;
    [|rewrite Disconnect_unknown by done; split; [done|split; [done|eauto]]].
  rewrite (Disconnect_found sid conn w Hs). cbv zeta.
  destruct (disconnect_loop_regs conn (map_to_list (channels w)) w) as [H1 [_ H3]].
  destruct (disconnect_loop_heap conn (map_to_list (channels w)) w) as [_ [Hso _]].
  set (w1 := foldl _ w _) in *.
  unfold deref.
  destruct (connections w !! SocketID conn).
  - split; [simpl; done|split; [|exact Hso]].
    intros k Hk. rewrite counter_Stats_Add. rewrite decide_False by congruence.
    unfold counter, set_connections. cbn [Stats]. by rewrite H3.
  - split; [done|split; [|exact Hso]].
    intros k _. unfold counter. by rewrite H3.
Qed.

(** Disconnecting a registered socket takes it out of the roster of every
    registered channel. *)
Lemma X5_Disconnect_clears_rosters w sid conn :
  connections w !! sid = Some conn -> SocketID conn = sid ->
  forall k p c, channels w !! k = Some p -> deref (Disconnect sid w) p = Some c ->
  subscriptions c !! sid = None.
Proof.
  intros Hs Hid k p c Hk.
  rewrite (Disconnect_found sid conn w Hs). cbv zeta.
  assert (Hl := disconnect_loop_clears conn (map_to_list (channels w)) w k p
                  (proj2 (elem_of_map_to_list _ _ _) Hk)).
  set (w1 := foldl _ w _) in *.
  subst sid. unfold deref.
  destruct (connections w !! SocketID conn); apply Hl.
Qed.

(** [AddChannel] registers the channel under its identifier:
    [FindChannelByChannelID] finds it there, and resolves every other
    identifier as before. *)
Lemma X6_AddChannel_FindChannelByChannelID w p c n :
  deref w p = Some c ->
  FindChannelByChannelID n (AddChannel p w) =
    if String.eqb n (ID c) then Ok p else FindChannelByChannelID n w.
Proof.
  intros Hp. destruct (AddChannel_counters p c w Hp) as [Hc _].
  unfold FindChannelByChannelID. rewrite Hc, lookup_insert.
  destruct (String.eqb_spec n (ID c)); case_decide; subst; congruence.
Qed.

(** Adding a channel whose identifier is not registered and then removing it
    gives back the channel registry and every counter value. *)
Lemma X7_AddChannel_RemoveChannel_roundtrip w p c :
  deref w p = Some c -> channels w !! ID c = None ->
  channels (RemoveChannel p (AddChannel p w)) = channels w /\
  (forall k, counter k (RemoveChannel p (AddChannel p w)) = counter k w).
Proof.
  intros Hp Hn.
  assert (Hp' : deref (AddChannel p w) p = Some c).
  { unfold AddChannel. rewrite Hp.
    destruct (adjust_kind_counters_regs c 1 (set_channels (<[ID c:=p]> (channels w)) w))
      as [_ [_ Hh]].
    unfold deref in *. by rewrite Hh. }
  destruct (AddChannel_counters p c w Hp) as [Hc _].
  destruct (RemoveChannel_counters p c _ Hp') as [Hc' _].
  split; [rewrite Hc', Hc; by apply delete_insert_id|].
  intros k. unfold RemoveChannel. rewrite Hp'.
  rewrite counter_adjust, counter_set_channels.
  unfold AddChannel. rewrite Hp.
  rewrite counter_adjust, counter_set_channels.
  repeat case_decide; lia.
Qed.

(** [AddChannel] of a channel whose identifier is already registered
    overwrites the entry: the registry keeps its size while TotalChannels
    still grows by one. *)
Lemma X8_AddChannel_registered w p c :
  deref w p = Some c -> is_Some (channels w !! ID c) ->
  size (channels (AddChannel p w)) = size (channels w) /\
  counter "TotalChannels" (AddChannel p w) = (counter "TotalChannels" w + 1)%Z.
Proof.
  intros Hp Hs. destruct (AddChannel_counters p c w Hp) as [Hc [_ [_ [Ht _]]]].
  rewrite Hc, Ht. split; [by apply map_size_insert_Some | done].
Qed.

(** A second [FindOrCreateChannelByChannelID] with the same identifier
    returns the same channel and changes nothing. *)
Lemma X9_FindOrCreate_idempotent n w :
  let '(w1, p) := FindOrCreateChannelByChannelID n w in
  FindOrCreateChannelByChannelID n w1 = (w1, p).
Proof.
  unfold FindOrCreateChannelByChannelID at 1, FindChannelByChannelID.
  destruct (channels w !! n) as [p|] eqn:E.
  - unfold FindOrCreateChannelByChannelID, FindChannelByChannelID. by rewrite E.
  - unfold alloc. cbv beta iota.
    set (c := channel_New n app_channel_options).
    set (w1 := mkWorld _ _ _ _ _ _ _).
    assert (Hd : deref w1 (next_ptr w) = Some c) by (unfold deref, w1; simpl; apply lookup_insert_eq).
    destruct (AddChannel_counters (next_ptr w) c w1 Hd) as [Hc _].
    unfold FindOrCreateChannelByChannelID, FindChannelByChannelID.
    rewrite Hc. change (ID c) with n. by rewrite lookup_insert_eq.
Qed.

(** In every state built by the Application methods the registry is keyed
    by channel identifiers: [FindChannelByChannelID n] only ever returns a
    channel whose identifier is [n]. *)
Lemma X10_reachable_keyed_by_ID c w :
  reachable c w ->
  registry_keyed_by_ID w = true /\
  (forall n p, FindChannelByChannelID n w = Ok p ->
     exists ch, deref w p = Some ch /\ ID ch = n).
Proof.
  intros Hr. destruct (reachable_inv c w Hr) as [Hk _].
  split.
  - unfold registry_keyed_by_ID. apply forallb_forall.
    intros [k p] Hin. apply list_elem_of_In, elem_of_map_to_list in Hin.
    destruct (Hk k p Hin) as (ch & Hch & <-). unfold deref. rewrite Hch.
    apply String.eqb_refl.
  - intros n p. unfold FindChannelByChannelID.
    destruct (channels w !! n) as [q|] eqn:E; [|discriminate].
    intros [= <-]. destruct (Hk n q E) as (ch & ? & ?). unfold deref. eauto.
Qed.

(** From a state built by the Application methods,
    [FindOrCreateChannelByChannelID n] returns a channel named [n] that
    [FindChannelByChannelID n] finds afterwards, and the state it leaves is
    again one the methods build. *)
Lemma X11_FindOrCreate_reachable c w n :
  reachable c w ->
  let '(w', p) := FindOrCreateChannelByChannelID n w in
  reachable c w' /\ FindChannelByChannelID n w' = Ok p /\
  exists ch, deref w' p = Some ch /\ ID ch = n.
Proof.
  intros Hr. destruct (reachable_inv c w Hr) as [Hk _].
  unfold FindOrCreateChannelByChannelID, FindChannelByChannelID at 1.
  destruct (channels w !! n) as [p|] eqn:E.
  - split; [done|]. split; [unfold FindChannelByChannelID; by rewrite E|].
    destruct (Hk n p E) as (ch & ? & ?). unfold deref. eauto.
  - unfold alloc. cbv beta iota.
    set (ch := channel_New n app_channel_options).
    set (w1 := mkWorld _ _ _ _ _ _ _).
    assert (Hd : deref w1 (next_ptr w) = Some ch) by (unfold deref, w1; simpl; apply lookup_insert_eq).
    destruct (AddChannel_counters (next_ptr w) ch w1 Hd) as [Hc _].
    split; [|split].
    + apply (reach_op c (OpAddChannel (next_ptr w)) w1).
      apply (reach_op c (OpNewChannel n app_channel_options) w Hr).
    + unfold FindChannelByChannelID. rewrite Hc. change (ID ch) with n. by rewrite lookup_insert_eq.
    + exists ch. split; [|done]. unfold AddChannel. rewrite Hd.
      destruct (adjust_kind_counters_regs ch 1 (set_channels (<[ID ch:=next_ptr w]> (channels w1)) w1))
        as [_ [_ Hh]].
      unfold deref in *. by rewrite Hh.
Qed.

(** On a registry keyed by channel identifiers, every channel [Channels]
    lists is listed by exactly one of [PresenceChannels], [PrivateChannels]
    and [PublicChannels]: their lengths add up to the length of
    [Channels]. *)
Lemma X12_kind_queries_partition w :
  registry_keyed_by_ID w = true ->
  (length (fst (PresenceChannels w)) + length (fst (PrivateChannels w)) +
   length (fst (PublicChannels w)) = length (fst (Channels w)))%nat.
Proof.
  intros Hw. unfold PresenceChannels, PrivateChannels, PublicChannels.
  rewrite !kind_filter_select, Channels_select.
  apply select_partition. intros k p Hin.
  apply elem_of_map_to_list in Hin.
  destruct (keyed_by_ID_lookup w k p Hw Hin) as (ch & -> & _).
  apply kind_exactly_one.
Qed.

(** *** Witnesses of the further properties *)

Lemma X2_Connect_Disconnect_roundtrip_witness :
  connections (NewApplication cfg0) !! SocketID conn1 = None /\
  connections (Disconnect "sock-1" world_connected) = ∅ /\
  counter "TotalConnections" (Disconnect "sock-1" world_connected) = 0%Z.
Proof.
  assert (E : connections (NewApplication cfg0) !! SocketID conn1 = None) by reflexivity.
  destruct (X2_Connect_Disconnect_roundtrip (NewApplication cfg0) conn1 E) as [Hc [_ Hk]].
  split; [exact E|]. split; [exact Hc|]. rewrite Hk. reflexivity.
Defined.

Lemma X3_Disconnect_forgets_socket_witness :
  reachable cfg0 world_connected /\
  FindConnection "sock-1" world_connected = Ok conn1 /\
  FindConnection "sock-1" (Disconnect "sock-1" world_connected) = Err "connection not found".
Proof.
  assert (Hr : reachable cfg0 world_connected)
    by exact (reach_op cfg0 (OpConnect conn1) _ (reach_new cfg0)).
  split; [exact Hr|]. split; [vm_compute; reflexivity|].
  exact (proj1 (X3_Disconnect_forgets_socket cfg0 world_connected "sock-1" Hr)).
Defined.

Lemma X5_Disconnect_clears_rosters_witness :
  is_Some (subscriptions (chan_at (fst scenario_subscribed) 1) !! "sock-1") /\
  (forall c, deref (Disconnect "sock-1" (fst scenario_subscribed)) 1 = Some c ->
     subscriptions c !! "sock-1" = None).
Proof.
  split; [vm_compute; eauto|].
  assert (Hs : connections (fst scenario_subscribed) !! "sock-1" = Some conn1)
    by (vm_compute; reflexivity).
  assert (Hk : channels (fst scenario_subscribed) !! "room" = Some 1%positive)
    by (vm_compute; reflexivity).
  intros c. exact (X5_Disconnect_clears_rosters (fst scenario_subscribed) "sock-1" conn1
           Hs eq_refl "room" 1 c Hk).
Defined.

Lemma X6_AddChannel_FindChannelByChannelID_witness :
  FindChannelByChannelID "room" world_unregistered = Err "channel does not exists" /\
  FindChannelByChannelID "room" (AddChannel 1 world_unregistered) = Ok 1%positive.
Proof.
  split; [vm_compute; reflexivity|].
  rewrite (X6_AddChannel_FindChannelByChannelID world_unregistered 1
             (channel_New "room" app_channel_options) "room"); [reflexivity|].
  vm_compute. reflexivity.
Defined.

Lemma X7_AddChannel_RemoveChannel_roundtrip_witness :
  channels (RemoveChannel 1 (AddChannel 1 world_unregistered)) = ∅ /\
  counter "TotalPublicChannels" (RemoveChannel 1 (AddChannel 1 world_unregistered)) = 0%Z.
Proof.
  destruct (X7_AddChannel_RemoveChannel_roundtrip world_unregistered 1
              (channel_New "room" app_channel_options)) as [Hc Hk];
    [vm_compute; reflexivity | vm_compute; reflexivity |].
  split; [exact Hc|]. rewrite Hk. reflexivity.
Defined.

(** "room" registered through [FindOrCreateChannelByChannelID]. *)
Lemma X8_AddChannel_registered_witness :
  size (channels (AddChannel 1 (fst (FindOrCreateChannelByChannelID "room" (NewApplication cfg0))))) = 1%nat /\
  counter "TotalChannels" (AddChannel 1 (fst (FindOrCreateChannelByChannelID "room" (NewApplication cfg0)))) = 2%Z.
Proof.
  destruct (X8_AddChannel_registered (fst (FindOrCreateChannelByChannelID "room" (NewApplication cfg0))) 1
              (channel_New "room" app_channel_options)) as [Hs Ht];
    [vm_compute; reflexivity | vm_compute; eauto |].
  rewrite Hs, Ht. vm_compute. split; reflexivity.
Defined.

Lemma X10_reachable_keyed_by_ID_witness :
  reachable cfg0 (AddChannel 1 world_unregistered) /\
  registry_keyed_by_ID (AddChannel 1 world_unregistered) = true.
Proof.
  assert (Hr : reachable cfg0 (AddChannel 1 world_unregistered)).
  { apply (reach_op cfg0 (OpAddChannel 1) world_unregistered).
    exact (reach_op cfg0 (OpNewChannel "room" app_channel_options) _ (reach_new cfg0)). }
  split; [exact Hr|].
  exact (proj1 (X10_reachable_keyed_by_ID cfg0 _ Hr)).
Defined.

Lemma X11_FindOrCreate_reachable_witness :
  reachable cfg0 world_connected /\
  FindChannelByChannelID "lobby"
    (fst (FindOrCreateChannelByChannelID "lobby" world_connected)) =
  Ok (snd (FindOrCreateChannelByChannelID "lobby" world_connected)).
Proof.
  assert (Hr : reachable cfg0 world_connected)
    by exact (reach_op cfg0 (OpConnect conn1) _ (reach_new cfg0)).
  split; [exact Hr|].
  pose proof (X11_FindOrCreate_reachable cfg0 world_connected "lobby" Hr) as H.
  destruct (FindOrCreateChannelByChannelID "lobby" world_connected) as [w' p].
  exact (proj1 (proj2 H)).
Defined.

Lemma X12_kind_queries_partition_witness :
  registry_keyed_by_ID (fst (FindOrCreateChannelByChannelID "presence-a"
                          (fst (FindOrCreateChannelByChannelID "room" (NewApplication cfg0))))) = true /\
  (length (fst (PresenceChannels (fst (FindOrCreateChannelByChannelID "presence-a"
                          (fst (FindOrCreateChannelByChannelID "room" (NewApplication cfg0))))))) +
   length (fst (PrivateChannels (fst (FindOrCreateChannelByChannelID "presence-a"
                          (fst (FindOrCreateChannelByChannelID "room" (NewApplication cfg0))))))) +
   length (fst (PublicChannels (fst (FindOrCreateChannelByChannelID "presence-a"
                          (fst (FindOrCreateChannelByChannelID "room" (NewApplication cfg0)))))))
   = 2)%nat.
Proof.
  assert (Hw : registry_keyed_by_ID (fst (FindOrCreateChannelByChannelID "presence-a"
                 (fst (FindOrCreateChannelByChannelID "room" (NewApplication cfg0))))) = true)
    by (vm_compute; reflexivity).
  split; [exact Hw|].
  rewrite (X12_kind_queries_partition _ Hw). vm_compute. reflexivity.
Defined.

End Nuntius.
